(** * Flight-Tracker: the flight-profile estimator and the live re-estimator

    Shallow embedding of [flight_tracker_app.py]: the aircraft table
    [aeronaves], [calcular_perfil_de_voo], [consultar_adsb_lol] and the
    live-tracking pass of the script (position fetch with fallback, phase
    classification, remaining time).

    Numbers.  The script computes on Python numbers: [int] constants from
    the table and the sidebar, binary64 [float] everywhere else.  The
    estimator itself only uses [+ - * /], [>] and the literals [0] and [60],
    and Python dispatches these on the run-time type of the operands, so it
    is written once over an interface [Numero] and run on two carriers:
    - [float], IEEE 754 binary64 with round-to-nearest-even, which is what
      the application computes with (Rocq's primitive floats);
    - [Q], exact rationals (the same function applied to
      [fractions.Fraction] arguments), to say what holds before rounding.
    Integers of the table and of the sidebar are far below 2^53, so their
    conversion to binary64 is exact and [int / int] is the binary64 quotient
    of the converted operands. *)

From Stdlib Require Import ZArith QArith Lqa Floats Lia.
From stdpp Require Import base option list strings gmap.

#[local] Set Warnings "-inexact-float".
Local Open Scope Z_scope.

(** ** Exceptions and results *)

Inductive excecao : Type :=
| ValueError (msg : string)
| ZeroDivisionError.

Inductive resultado (A : Type) : Type :=
| Ok (a : A)
| Raise (e : excecao).
Arguments Ok {A} a.
Arguments Raise {A} e.

#[global] Instance resultado_ret : MRet resultado := fun A a => Ok a.
#[global] Instance resultado_bind : MBind resultado := fun A B f m =>
  match m with
  | Ok a => f a
  | Raise e => Raise e
  end.

(** ** Python numbers *)

Class Numero (N : Type) : Type := {
  of_int : Z -> N;                (* an [int] operand, converted *)
  add : N -> N -> N;
  sub : N -> N -> N;
  mul : N -> N -> N;
  quot : N -> N -> N;             (* [a / b] for a nonzero [b] *)
  gt : N -> N -> bool;            (* [a > b] *)
  eq0 : N -> bool;                (* [b == 0], the test of [a / b] *)
  gt_0_eq0 : forall x, gt x (of_int 0) = true -> eq0 x = false;
  eq0_60 : eq0 (of_int 60) = false
}.

Definition positivo {N} `{Numero N} (x : N) : Prop := gt x (of_int 0) = true.

(** [a / b]: true division raises on a zero divisor. *)
Definition truediv {N} `{Numero N} (a b : N) : resultado N :=
  if eq0 b then Raise ZeroDivisionError else Ok (quot a b).

(** [max(0, x)]: the builtin keeps its first argument unless a later one is
    greater. *)
Definition max0 {N} `{Numero N} (x : N) : N :=
  if gt x (of_int 0) then x else of_int 0.

(** *** binary64 *)

(** [float(z)], correctly rounded. *)
Definition Z2F (z : Z) : float := SF2Prim (binary_normalize prec emax z 0 false).

#[global, refine] Instance Numero_float : Numero float := {|
  of_int := Z2F;
  add := PrimFloat.add;
  sub := PrimFloat.sub;
  mul := PrimFloat.mul;
  quot := PrimFloat.div;
  gt := fun a b => PrimFloat.ltb b a;
  eq0 := fun b => PrimFloat.eqb b 0%float
|}.
Proof.
  - intros x. change (Z2F 0) with 0%float.
    rewrite FloatAxioms.ltb_spec, FloatAxioms.eqb_spec.
    destruct (Prim2SF x) as [s|s| |s m e]; cbn; try destruct s; cbn; congruence.
  - reflexivity.
Defined.

(** *** exact rationals *)

Definition Qgt_bool (a b : Q) : bool := negb (Qle_bool a b).

#[global, refine] Instance Numero_Q : Numero Q := {|
  of_int := inject_Z;
  add := Qplus;
  sub := Qminus;
  mul := Qmult;
  quot := Qdiv;
  gt := Qgt_bool;
  eq0 := fun b => Qeq_bool b 0%Q
|}.
Proof.
  - intros x. unfold Qgt_bool. intros Hgt.
    destruct (Qeq_bool x 0) eqn:Heq; [|reflexivity].
    apply Qeq_bool_iff in Heq.
    assert (Hle : Qle_bool x (inject_Z 0) = true)
      by (apply Qle_bool_iff; rewrite Heq; apply Qle_refl).
    rewrite Hle in Hgt. discriminate.
  - reflexivity.
Defined.

(** ** The aircraft table *)

Module Aeronave.
Record t : Type := mk {
  altitude_cruzeiro_ft : Z;
  vel_subida_kmh : Z;
  vel_cruzeiro_kmh : Z;
  vel_descida_kmh : Z;
  razao_subida_fpm : Z;
  razao_descida_fpm : Z;
  subida_descida : Z
}.
End Aeronave.

Definition aeronaves : gmap string Aeronave.t :=
  {[ "VC-1 (Airbus A319)"%string := Aeronave.mk 35000 500 840 600 2000 1800 314;
     "VC-2 (Embraer 190)"%string := Aeronave.mk 37000 480 820 580 2200 1800 268;
     "KC-30 (Airbus A330)"%string := Aeronave.mk 41000 550 880 650 2000 2000 362 ]}.

(** ** The flight profile *)

Module Fase.
Record t (N : Type) : Type := mk { dist_km : N; tempo_h : N }.
Arguments mk {N}.
Arguments dist_km {N}.
Arguments tempo_h {N}.
End Fase.

Module Perfil.
Record t (N : Type) : Type := mk {
  subida : Fase.t N;
  cruzeiro : Fase.t N;
  descida : Fase.t N;
  tempo_total_h : N;
  altitude_cruzeiro_ft : N
}.
Arguments mk {N}.
Arguments subida {N}.
Arguments cruzeiro {N}.
Arguments descida {N}.
Arguments tempo_total_h {N}.
Arguments altitude_cruzeiro_ft {N}.
End Perfil.

(** The six parameters the function computes with, once the table entry or
    the custom values have been chosen (lines 64-80). *)
Module Param.
Record t (N : Type) : Type := mk {
  altitude_cruzeiro_ft : N;
  vel_subida_kmh : N;
  vel_cruzeiro_kmh : N;
  vel_descida_kmh : N;
  razao_subida_fpm : N;
  razao_descida_fpm : N
}.
Arguments mk {N}.
Arguments altitude_cruzeiro_ft {N}.
Arguments vel_subida_kmh {N}.
Arguments vel_cruzeiro_kmh {N}.
Arguments vel_descida_kmh {N}.
Arguments razao_subida_fpm {N}.
Arguments razao_descida_fpm {N}.
End Param.

Section Estimador.
Context {N : Type} `{Numero N}.

(** "Obter parâmetros da aeronave": [tipo_aeronave in aeronaves], else
    [tipo_aeronave == 'Custom'] with the [None in [...]] guard, else the
    second [ValueError].  The three speed arguments of the function are
    overwritten on every path that does not raise. *)
Definition obter_parametros
    (tipo_aeronave : option string)
    (vel_custom altitude_cruzeiro_ft
     vel_subida_kmh vel_cruzeiro_kmh vel_descida_kmh
     razao_subida_fpm razao_descida_fpm : option N) : resultado (Param.t N) :=
  match tipo_aeronave ≫= (aeronaves !!.) with
  | Some param =>
      Ok (Param.mk (of_int (Aeronave.altitude_cruzeiro_ft param))
                   (of_int (Aeronave.vel_subida_kmh param))
                   (of_int (Aeronave.vel_cruzeiro_kmh param))
                   (of_int (Aeronave.vel_descida_kmh param))
                   (of_int (Aeronave.razao_subida_fpm param))
                   (of_int (Aeronave.razao_descida_fpm param)))
  | None =>
      if bool_decide (tipo_aeronave = Some "Custom"%string) then
        match vel_custom, altitude_cruzeiro_ft, razao_subida_fpm, razao_descida_fpm with
        | Some vel, Some alt, Some rs, Some rd => Ok (Param.mk alt vel vel vel rs rd)
        | _, _, _, _ =>
            Raise (ValueError "Para aeronave custom, todos os parâmetros devem ser fornecidos")
        end
      else Raise (ValueError "Tipo de aeronave não especificado corretamente")
  end.

(** "Cálculos do perfil de voo" (lines 82-103). *)
Definition perfil_de_voo (distancia_total_km : N) (p : Param.t N)
    : resultado (Perfil.t N) :=
  tempo_subida_min ← truediv (Param.altitude_cruzeiro_ft p) (Param.razao_subida_fpm p);
  tempo_descida_min ← truediv (Param.altitude_cruzeiro_ft p) (Param.razao_descida_fpm p);
  tempo_subida_h ← truediv tempo_subida_min (of_int 60);
  tempo_descida_h ← truediv tempo_descida_min (of_int 60);
  let d_subida_km := mul (Param.vel_subida_kmh p) tempo_subida_h in
  let d_descida_km := mul (Param.vel_descida_kmh p) tempo_descida_h in
  let d_cruzeiro_km := max0 (sub (sub distancia_total_km d_subida_km) d_descida_km) in
  t_cruzeiro_h ← (if gt d_cruzeiro_km (of_int 0)
                  then truediv d_cruzeiro_km (Param.vel_cruzeiro_kmh p)
                  else Ok (of_int 0));
  let tempo_total_h := add (add tempo_subida_h t_cruzeiro_h) tempo_descida_h in
  Ok (Perfil.mk (Fase.mk d_subida_km tempo_subida_h)
                (Fase.mk d_cruzeiro_km t_cruzeiro_h)
                (Fase.mk d_descida_km tempo_descida_h)
                tempo_total_h
                (Param.altitude_cruzeiro_ft p)).

Definition calcular_perfil_de_voo
    (distancia_total_km : N)
    (tipo_aeronave : option string)
    (vel_custom altitude_cruzeiro_ft
     vel_subida_kmh vel_cruzeiro_kmh vel_descida_kmh
     razao_subida_fpm razao_descida_fpm : option N) : resultado (Perfil.t N) :=
  p ← obter_parametros tipo_aeronave vel_custom altitude_cruzeiro_ft
         vel_subida_kmh vel_cruzeiro_kmh vel_descida_kmh
         razao_subida_fpm razao_descida_fpm;
  perfil_de_voo distancia_total_km p.
End Estimador.


(** ** Live tracking: what the providers answer *)

(** A state vector of the primary provider (OpenSky): the four fields the
    script reads, each a [float] or [None]. *)
Module StateVector.
Record t : Type := mk {
  latitude : option float;
  longitude : option float;
  velocity : option float;
  baro_altitude : option float
}.
End StateVector.

(** Outcome of [api.get_states(icao24=icao24)]: it raises, or returns [None],
    or returns an object whose [states] attribute is a list. *)
Inductive resposta_opensky : Type :=
| OSRaise
| OSNone
| OSStates (states : list StateVector.t).

(** A decoded JSON document.  Numbers are read as binary64 (an integer
    literal below 2^53 is its exact value); [JNull] is Python's [None]. *)
#[warnings="-register-all"]
Inductive json : Type :=
| JNull
| JBool (b : bool)
| JNum (x : float)
| JStr (s : string)
| JArr (l : list json)
| JObj (m : gmap string json).

(** Outcome of the three library calls of [consultar_adsb_lol]:
    [requests.get] raises (time-out, connection error); or
    [raise_for_status] raises on the status of the response; or
    [response.json()] raises on a body that is not JSON; or the body
    decodes to [data]. *)
Inductive resposta_http : Type :=
| HttpRaise
| HttpStatusError
| HttpBodyError
| HttpJson (data : json).

Record Mundo : Type := {
  opensky : string -> resposta_opensky;
  adsb_lol : string -> resposta_http
}.

(** What a pass does to the outside: provider calls and notices. *)
Inductive chamada : Type :=
| get_states (icao24 : string)
| requests_get (url : string)
| st_info
| st_warning.

(** The script against the providers: a reader of [Mundo] that logs its
    calls. *)
Definition IO (A : Type) : Type := Mundo -> list chamada -> A * list chamada.

#[global] Instance IO_ret : MRet IO := fun A a _ log => (a, log).
#[global] Instance IO_bind : MBind IO := fun A B f m w log =>
  let '(a, log') := m w log in f a w log'.

Definition api_get_states (icao24 : string) : IO resposta_opensky :=
  fun w log => (opensky w icao24, log ++ [get_states icao24]).

Definition requests_get_json (url : string) : IO resposta_http :=
  fun w log => (adsb_lol w url, log ++ [requests_get url]).

Definition notice (c : chamada) : IO unit :=
  fun _ log => (tt, log ++ [c]).

(** ** Python truth values and the JSON accessors used by the script *)

Definition float_truthy (x : float) : bool := negb (PrimFloat.eqb x 0%float).

(** [bool(x)] for a field that is a float or [None]. *)
Definition truthy (o : option float) : bool :=
  match o with
  | Some x => float_truthy x
  | None => false
  end.

Definition json_truthy (j : json) : bool :=
  match j with
  | JNull => false
  | JBool b => b
  | JNum x => float_truthy x
  | JStr s => negb (String.eqb s "")
  | JArr l => negb (bool_decide (l = []))
  | JObj m => negb (bool_decide (m = ∅))
  end.

(** [d.get(k, default)]; anything but a dict has no [get]
    ([AttributeError], here [None]). *)
Definition json_get (d : json) (k : string) (default : json) : option json :=
  match d with
  | JObj m => Some (from_option id default (m !! k))
  | _ => None
  end.

(** [d[k]] for a string key: [KeyError] or [TypeError] unless [d] is a dict
    that has the key. *)
Definition json_index (d : json) (k : string) : option json :=
  match d with
  | JObj m => m !! k
  | _ => None
  end.

(** [k in d], for a [d] that is a dict. *)
Definition json_has_key (k : string) (d : json) : bool :=
  bool_decide (is_Some (json_index d k)).

(** [v > 0] for a decoded value; [True] is [1]; other types raise
    [TypeError]. *)
Definition json_gt_0 (v : json) : option bool :=
  match v with
  | JNum x => Some (PrimFloat.ltb 0%float x)
  | JBool b => Some b
  | _ => None
  end.

(** [v[0]] followed by an attribute access that needs a dict: only a
    non-empty list has a usable first element ([IndexError], [KeyError],
    [TypeError] otherwise; the one-character string [s[0]] has no [get]). *)
Definition json_item_0 (v : json) : option json :=
  match v with
  | JArr (x :: _) => Some x
  | _ => None
  end.

(** [v * 1.852]: numbers multiply ([True] is [1]); a sequence or a dict
    times a float raises [TypeError]. *)
Definition json_mul (v : json) (k : float) : option float :=
  match v with
  | JNum x => Some (x * k)%float
  | JBool b => Some ((if b then 1 else 0) * k)%float
  | _ => None
  end.

Definition lower_ascii (c : Ascii.ascii) : Ascii.ascii :=
  let n := Ascii.nat_of_ascii c in
  if ((65 <=? n) && (n <=? 90))%nat then Ascii.ascii_of_nat (n + 32) else c.

Fixpoint lower (s : string) : string :=
  match s with
  | EmptyString => EmptyString
  | String c s' => String (lower_ascii c) (lower s')
  end.

(** ** The secondary provider *)

(** The dict returned by [consultar_adsb_lol].  Its ["timestamp"] entry, a
    clock reading the script never looks at, is left out. *)
Module Fallback.
Record t : Type := mk {
  latitude : json;
  longitude : json;
  velocity : option float
}.
End Fallback.

(** The body of the [try]: [None] is both the explicit [return None] and
    any exception, which the bare [except] turns into [return None]. *)
Definition adsb_lol_de_json (data : json) : option Fallback.t :=
  total ← json_get data "total" (JNum 0);
  positivo ← json_gt_0 total;
  if positivo && json_has_key "ac" data then
    lista ← json_index data "ac";
    ac ← json_item_0 lista;
    lat ← json_get ac "lat" JNull;
    lon ← json_get ac "lon" JNull;
    gs ← json_get ac "gs" JNull;
    velocity ← (if json_truthy gs then Some <$> json_mul gs 1.852%float else Some None);
    Some (Fallback.mk lat lon velocity)
  else None.

Definition adsb_url (icao24 : string) : string :=
  "https://api.adsb.lol/v2/icao/" +:+ lower icao24.

Definition consultar_adsb_lol (icao24 : string) : IO (option Fallback.t) :=
  let url := adsb_url icao24 in
  response ← requests_get_json url;
  mret (match response with
        | HttpJson data => adsb_lol_de_json data
        | HttpRaise | HttpStatusError | HttpBodyError => None
        end).

(** ** The live-tracking pass (script lines 310-341) *)

Module Rastreio.
Record t : Type := mk {
  dados_validos : bool;
  posicao : option (json * json);
  velocidade_kmh : option float;     (* unbound while no data is valid *)
  state : option StateVector.t
}.
End Rastreio.

Definition json_of (o : option float) : json :=
  match o with
  | Some x => JNum x
  | None => JNull
  end.

(** The [try] around the primary provider. *)
Definition consultar_opensky (icao24 : string) : IO Rastreio.t :=
  states ← api_get_states icao24;
  mret (match states with
        | OSStates (state :: _) =>
            if truthy (StateVector.latitude state) && truthy (StateVector.longitude state)
               && truthy (StateVector.velocity state)
            then Rastreio.mk true
                   (Some (json_of (StateVector.latitude state),
                          json_of (StateVector.longitude state)))
                   ((fun v => v * 3.6)%float <$> StateVector.velocity state)
                   (Some state)
            else Rastreio.mk false None None (Some state)
        | OSStates [] | OSNone | OSRaise => Rastreio.mk false None None None
        end).

Definition rastrear (icao24 : string) : IO Rastreio.t :=
  r ← consultar_opensky icao24;
  if negb (Rastreio.dados_validos r) then
    fallback ← consultar_adsb_lol icao24;
    match fallback with
    | Some fb =>
        if json_truthy (Fallback.latitude fb) && json_truthy (Fallback.longitude fb)
           && truthy (Fallback.velocity fb)
        then
          _ ← notice st_info;
          mret (Rastreio.mk true (Some (Fallback.latitude fb, Fallback.longitude fb))
                            (Fallback.velocity fb) (Rastreio.state r))
        else
          _ ← notice st_warning; mret r
    | None => _ ← notice st_warning; mret r
    end
  else mret r.

(** ** The sidebar and the theoretical estimate (script lines 165-277) *)

(** The aircraft chosen in the sidebar.  The four custom inputs are bound
    only when ['Custom'] is selected and are read on that path only;
    [number_input] returns a float for the speed and integers for the
    altitude and the two rates. *)
Module Sidebar.
Record t : Type := mk {
  tipo_aeronave : string;
  vel_custom : float;
  altitude_custom : Z;
  razao_subida_custom : Z;
  razao_descida_custom : Z
}.
End Sidebar.

(** "Tempo teórico": [perfil], from which the script keeps
    [tempo_teorico] and [altitude_cruzeiro]. *)
Definition perfil (e : Sidebar.t) (distancia : float) : resultado (Perfil.t float) :=
  if bool_decide (is_Some (aeronaves !! Sidebar.tipo_aeronave e)) then
    calcular_perfil_de_voo distancia (Some (Sidebar.tipo_aeronave e))
      None None None None None None None
  else
    calcular_perfil_de_voo distancia (Some "Custom"%string)
      (Some (Sidebar.vel_custom e)) (Some (Z2F (Sidebar.altitude_custom e)))
      None None None
      (Some (Z2F (Sidebar.razao_subida_custom e)))
      (Some (Z2F (Sidebar.razao_descida_custom e))).

(** ** The phase re-estimator (script lines 343-383) *)

(** "Obter altitude atual". *)
Definition altitude_atual_ft (state : option StateVector.t) (altitude_cruzeiro : float)
    : float :=
  match state with
  | Some st =>
      match StateVector.baro_altitude st with
      | Some b => if float_truthy b then (b * 3.28084)%float else altitude_cruzeiro
      | None => altitude_cruzeiro
      end
  | None => altitude_cruzeiro
  end.

(** "Determinar fase de voo". *)
Definition fase (distancia_restante altitude_atual_ft altitude_cruzeiro : float) : string :=
  if PrimFloat.ltb distancia_restante 150%float then "descida"
  else if PrimFloat.ltb altitude_atual_ft (0.85 * altitude_cruzeiro)%float then "subida"
  else "cruzeiro".

(** "Obter parâmetros da aeronave": [(vel_subida, vel_cruzeiro, vel_descida)]. *)
Definition velocidades (e : Sidebar.t) : float * float * float :=
  match aeronaves !! Sidebar.tipo_aeronave e with
  | Some param =>
      (Z2F (Aeronave.vel_subida_kmh param),
       Z2F (Aeronave.vel_cruzeiro_kmh param),
       Z2F (Aeronave.vel_descida_kmh param))
  | None => (Sidebar.vel_custom e, Sidebar.vel_custom e, Sidebar.vel_custom e)
  end.

(** "Cálculo adaptativo". *)
Definition tempo_h (e : Sidebar.t) (altitude_cruzeiro distancia_restante : float)
    (fase : string) : resultado float :=
  let '(vel_subida, vel_cruzeiro, vel_descida) := velocidades e in
  if String.eqb fase "descida" then truediv distancia_restante vel_descida
  else if String.eqb fase "cruzeiro" then truediv distancia_restante vel_cruzeiro
  else
    perfil_real ← calcular_perfil_de_voo distancia_restante
                    (Some (Sidebar.tipo_aeronave e))
                    (if String.eqb (Sidebar.tipo_aeronave e) "Custom"
                     then Some (Sidebar.vel_custom e) else None)
                    (Some altitude_cruzeiro)
                    None None None None None;
    Ok (Perfil.tempo_total_h perfil_real).

(** One live update: the phase and the remaining time, from the state kept
    by the fetch and the distance left to the destination. *)
Definition atualizar (e : Sidebar.t) (altitude_cruzeiro : float)
    (state : option StateVector.t) (distancia_restante : float)
    : string * resultado float :=
  let f := fase distancia_restante (altitude_atual_ft state altitude_cruzeiro)
                altitude_cruzeiro in
  (f, tempo_h e altitude_cruzeiro distancia_restante f).

(** ** Vocabulary of the statements *)



Definition e_requests_get (c : chamada) : bool :=
  match c with
  | requests_get _ => true
  | _ => false
  end.

(** How many times a pass consulted the secondary provider. *)
Definition consultas_adsb_lol (log : list chamada) : nat :=
  length (List.filter e_requests_get log).

Definition primeiro_state (resp : resposta_opensky) : option StateVector.t :=
  match resp with
  | OSStates (st :: _) => Some st
  | _ => None
  end.

(** The primary provider gave no usable velocity. *)
Definition sem_velocidade (resp : resposta_opensky) : Prop :=
  match resp with
  | OSStates (st :: _) => truthy (StateVector.velocity st) = false
  | _ => True
  end.

(** A field that Python takes for false: [None] or [0]. *)
Definition falsy (o : option float) : Prop := o = None \/ o = Some 0%float.

(** The two examples at 1000 km from the destination, for an integer cruise
    altitude [z]: half of it is a climb, all of it is a cruise. *)
Definition exemplo_de_fase (z : Z) : bool :=
  String.eqb (fase 1000 (0.5 * Z2F z) (Z2F z)) "subida" &&
  String.eqb (fase 1000 (Z2F z) (Z2F z)) "cruzeiro".

(** The examples at the [n] consecutive altitudes from [z] on. *)
Fixpoint todos_desde (n : nat) (z : Z) : bool :=
  match n with
  | O => true
  | S n' => exemplo_de_fase z && todos_desde n' (z + 1)
  end.

(** ** Automatic refresh (script lines 406-413) *)


(** [f] holds at the [n] consecutive integers from [z] on. *)
Fixpoint todos_em (f : Z -> bool) (n : nat) (z : Z) : bool :=
  match n with
  | O => true
  | S n' => f z && todos_em f n' (z + 1)
  end.



(** The three shapes of what a pass adds to the log. *)
Inductive passo_do_log (icao24 : string) : bool -> list chamada -> Prop :=
| passo_primario :
    passo_do_log icao24 true [get_states icao24]
| passo_fallback :
    passo_do_log icao24 true
      [get_states icao24; requests_get (adsb_url icao24); st_info]
| passo_sem_dados :
    passo_do_log icao24 false
      [get_states icao24; requests_get (adsb_url icao24); st_warning].

(** * Properties *)

(** ** The estimator *)

Lemma aeronaves_Custom : aeronaves !! "Custom"%string = None.
Proof. reflexivity. Qed.

Section EstimadorProps.
Context {N : Type} `{Numero N}.

Lemma truediv_positivo (a b : N) : positivo b -> truediv a b = Ok (quot a b).
Proof. intros Hb. unfold truediv. now rewrite (gt_0_eq0 b Hb). Qed.

Lemma truediv_60 (a : N) : truediv a (of_int 60) = Ok (quot a (of_int 60)).
Proof. unfold truediv. now rewrite eq0_60. Qed.

(** The calculation on a profile with positive rates and cruise speed:
    no division raises, and the result is the record built at the end of
    the function. *)
Lemma perfil_de_voo_positivo (D : N) (p : Param.t N) :
  positivo (Param.razao_subida_fpm p) ->
  positivo (Param.razao_descida_fpm p) ->
  positivo (Param.vel_cruzeiro_kmh p) ->
  let ts := quot (quot (Param.altitude_cruzeiro_ft p) (Param.razao_subida_fpm p)) (of_int 60) in
  let td := quot (quot (Param.altitude_cruzeiro_ft p) (Param.razao_descida_fpm p)) (of_int 60) in
  let ds := mul (Param.vel_subida_kmh p) ts in
  let dd := mul (Param.vel_descida_kmh p) td in
  let dc := max0 (sub (sub D ds) dd) in
  let tc := if gt dc (of_int 0) then quot dc (Param.vel_cruzeiro_kmh p) else of_int 0 in
  perfil_de_voo D p =
    Ok (Perfil.mk (Fase.mk ds ts) (Fase.mk dc tc) (Fase.mk dd td)
                  (add (add ts tc) td) (Param.altitude_cruzeiro_ft p)).
Proof.
  intros Hrs Hrd Hvc. unfold perfil_de_voo.
  rewrite (truediv_positivo _ _ Hrs), (truediv_positivo _ _ Hrd). cbn.
  rewrite !truediv_60. cbn.
  destruct (gt (max0 _) (of_int 0)); cbn; [|reflexivity].
  now rewrite (truediv_positivo _ _ Hvc).
Qed.

Lemma calcular_perfil_de_voo_eq (D : N) tipo vel_custom alt vs vc vd rs rd p :
  obter_parametros tipo vel_custom alt vs vc vd rs rd = Ok p ->
  calcular_perfil_de_voo D tipo vel_custom alt vs vc vd rs rd = perfil_de_voo D p.
Proof. intros Hp. unfold calcular_perfil_de_voo. now rewrite Hp. Qed.

(** The parameter selection never divides. *)
Lemma obter_parametros_nao_divide tipo vel_custom alt vs vc vd rs rd :
  obter_parametros tipo vel_custom alt vs vc vd rs rd <> Raise ZeroDivisionError.
Proof.
  unfold obter_parametros.
  destruct (tipo ≫= _); [discriminate|].
  destruct (bool_decide _); [|discriminate].
  destruct vel_custom, alt, rs, rd; discriminate.
Qed.
End EstimadorProps.

(** C1. For a profile with positive rates and cruise speed (a table entry or
    complete custom values), [calcular_perfil_de_voo] returns: climb time =
    cruise altitude / climb rate / 60, descent time = cruise altitude /
    descent rate / 60, climb distance = climb speed * climb time, descent
    distance = descent speed * descent time, cruise distance = max(0, D -
    climb distance - descent distance), cruise time = cruise distance /
    cruise speed if the cruise distance is > 0 and 0 otherwise, and
    [tempo_total_h] is exactly the sum of the three phase times.  It holds
    for every distance [D] and on both carriers. *)
Theorem calcular_perfil_de_voo_fases {N : Type} `{Numero N}
    (D : N) (tipo : option string)
    (vel_custom alt vs vc vd rs rd : option N) (p : Param.t N) :
  obter_parametros tipo vel_custom alt vs vc vd rs rd = Ok p ->
  positivo (Param.razao_subida_fpm p) ->
  positivo (Param.razao_descida_fpm p) ->
  positivo (Param.vel_cruzeiro_kmh p) ->
  exists r : Perfil.t N,
    calcular_perfil_de_voo D tipo vel_custom alt vs vc vd rs rd = Ok r /\
    Fase.tempo_h (Perfil.subida r) =
      quot (quot (Param.altitude_cruzeiro_ft p) (Param.razao_subida_fpm p)) (of_int 60) /\
    Fase.tempo_h (Perfil.descida r) =
      quot (quot (Param.altitude_cruzeiro_ft p) (Param.razao_descida_fpm p)) (of_int 60) /\
    Fase.dist_km (Perfil.subida r) =
      mul (Param.vel_subida_kmh p) (Fase.tempo_h (Perfil.subida r)) /\
    Fase.dist_km (Perfil.descida r) =
      mul (Param.vel_descida_kmh p) (Fase.tempo_h (Perfil.descida r)) /\
    Fase.dist_km (Perfil.cruzeiro r) =
      max0 (sub (sub D (Fase.dist_km (Perfil.subida r))) (Fase.dist_km (Perfil.descida r))) /\
    Fase.tempo_h (Perfil.cruzeiro r) =
      (if gt (Fase.dist_km (Perfil.cruzeiro r)) (of_int 0)
       then quot (Fase.dist_km (Perfil.cruzeiro r)) (Param.vel_cruzeiro_kmh p)
       else of_int 0) /\
    Perfil.tempo_total_h r =
      add (add (Fase.tempo_h (Perfil.subida r)) (Fase.tempo_h (Perfil.cruzeiro r)))
          (Fase.tempo_h (Perfil.descida r)).
Proof.
  intros Hp Hrs Hrd Hvc.
  rewrite (calcular_perfil_de_voo_eq D _ _ _ _ _ _ _ _ p Hp).
  rewrite (perfil_de_voo_positivo D p Hrs Hrd Hvc).
  eexists. split; [reflexivity|]. cbn. repeat split.
Qed.

Lemma calcular_perfil_de_voo_fases_witness :
  exists r : Perfil.t float,
    calcular_perfil_de_voo 357%float (Some "VC-1 (Airbus A319)"%string)
      None None None None None None None = Ok r /\
    Fase.tempo_h (Perfil.subida r) = (35000 / 2000 / 60)%float /\
    Fase.dist_km (Perfil.cruzeiro r) = 16.722222222222229%float /\
    Perfil.tempo_total_h r = 0.63564814814814818%float.
Proof.
  destruct (calcular_perfil_de_voo_fases (N := float) 357%float
              (Some "VC-1 (Airbus A319)"%string) None None None None None None None
              (Param.mk 35000%float 500%float 840%float 600%float 2000%float 1800%float))
    as (r & Hr & Hts & _ & _ & _ & Hdc & _ & Htot);
    [reflexivity | reflexivity | reflexivity | reflexivity |].
  exists r. split; [exact Hr|].
  vm_compute in Hr. injection Hr as <-.
  repeat split; vm_compute; reflexivity.
Defined.

(** C3. With [tipo_aeronave = 'Custom'], as soon as one of [vel_custom],
    [altitude_cruzeiro_ft], [razao_subida_fpm], [razao_descida_fpm] is
    [None], the call raises [ValueError] and returns no profile. *)
Theorem custom_incompleto_ValueError {N : Type} `{Numero N}
    (D : N) (vel_custom alt vs vc vd rs rd : option N) :
  vel_custom = None \/ alt = None \/ rs = None \/ rd = None ->
  calcular_perfil_de_voo D (Some "Custom"%string) vel_custom alt vs vc vd rs rd =
    Raise (ValueError "Para aeronave custom, todos os parâmetros devem ser fornecidos").
Proof.
  intros Hnone. unfold calcular_perfil_de_voo, obter_parametros.
  cbn [mbind option_bind]. rewrite aeronaves_Custom.
  rewrite bool_decide_eq_true_2 by reflexivity.
  destruct vel_custom, alt, rs, rd; try reflexivity.
  destruct Hnone as [? | [? | [? | ?]]]; discriminate.
Qed.

Lemma custom_incompleto_ValueError_witness :
  calcular_perfil_de_voo 357%float (Some "Custom"%string)
    (Some 850%float) (Some 35000%float) None None None None (Some 1800%float) =
    Raise (ValueError "Para aeronave custom, todos os parâmetros devem ser fornecidos").
Proof.
  apply (custom_incompleto_ValueError (N := float)).
  right. right. left. reflexivity.
Defined.

(** C9. When the cruise speed, the climb rate and the descent rate of the
    selected profile are strictly positive, each divisor used by
    [calcular_perfil_de_voo] (climb rate, descent rate, the constant 60,
    cruise speed) is nonzero and the call does not raise
    [ZeroDivisionError]. *)
Theorem calcular_perfil_de_voo_sem_ZeroDivisionError {N : Type} `{Numero N}
    (D : N) (tipo : option string) (vel_custom alt vs vc vd rs rd : option N) :
  (forall p, obter_parametros tipo vel_custom alt vs vc vd rs rd = Ok p ->
     positivo (Param.vel_cruzeiro_kmh p) /\
     positivo (Param.razao_subida_fpm p) /\
     positivo (Param.razao_descida_fpm p)) ->
  (forall p, obter_parametros tipo vel_custom alt vs vc vd rs rd = Ok p ->
     eq0 (Param.razao_subida_fpm p) = false /\
     eq0 (Param.razao_descida_fpm p) = false /\
     eq0 (of_int 60) = false /\
     eq0 (Param.vel_cruzeiro_kmh p) = false) /\
  calcular_perfil_de_voo D tipo vel_custom alt vs vc vd rs rd <> Raise ZeroDivisionError.
Proof.
  intros Hpos. split.
  - intros p Hp. destruct (Hpos p Hp) as (Hvc & Hrs & Hrd).
    repeat split; auto using gt_0_eq0, eq0_60.
  - destruct (obter_parametros tipo vel_custom alt vs vc vd rs rd) as [p|e] eqn:Hp.
    + destruct (Hpos p eq_refl) as (Hvc & Hrs & Hrd).
      rewrite (calcular_perfil_de_voo_eq D _ _ _ _ _ _ _ _ p Hp).
      rewrite (perfil_de_voo_positivo D p Hrs Hrd Hvc). discriminate.
    + unfold calcular_perfil_de_voo. rewrite Hp. cbn.
      intros Heq. apply (obter_parametros_nao_divide tipo vel_custom alt vs vc vd rs rd).
      rewrite Hp. now injection Heq as ->.
Qed.

Lemma calcular_perfil_de_voo_sem_ZeroDivisionError_witness :
  calcular_perfil_de_voo 40%float (Some "Custom"%string)
    (Some 850%float) (Some 35000%float) None None None (Some 2000%float) (Some 1800%float)
  <> Raise ZeroDivisionError.
Proof.
  apply (calcular_perfil_de_voo_sem_ZeroDivisionError (N := float)).
  intros p Hp. vm_compute in Hp. injection Hp as <-.
  repeat split; reflexivity.
Defined.




(** ** The phase re-estimator *)

Lemma fase_cases (d a c : float) :
  (PrimFloat.ltb d 150 = true /\ fase d a c = "descida"%string) \/
  (PrimFloat.ltb d 150 = false /\ PrimFloat.ltb a (0.85 * c) = true /\
   fase d a c = "subida"%string) \/
  (PrimFloat.ltb d 150 = false /\ PrimFloat.ltb a (0.85 * c) = false /\
   fase d a c = "cruzeiro"%string).
Proof.
  unfold fase.
  destruct (PrimFloat.ltb d 150); [now left|].
  destruct (PrimFloat.ltb a (0.85 * c)); [right; left | right; right]; auto.
Qed.

Lemma todos_desde_ok (n : nat) : forall z0 z : Z,
  todos_desde n z0 = true -> z0 <= z < z0 + Z.of_nat n -> exemplo_de_fase z = true.
Proof.
  induction n as [|n IH]; intros z0 z Hall Hz; [lia|].
  cbn [todos_desde] in Hall. apply andb_prop in Hall as [Hz0 Hrest].
  destruct (Z.eq_dec z z0) as [->|Hne]; [exact Hz0|].
  apply (IH (z0 + 1)); [exact Hrest | lia].
Qed.

Lemma exemplo_de_fase_10000_50000 : todos_desde (Z.to_nat 40001) 10000 = true.
Proof. vm_compute. reflexivity. Qed.

Lemma exemplo_de_fase_ok (z : Z) : 10000 <= z <= 50000 -> exemplo_de_fase z = true.
Proof.
  intros Hz. apply (todos_desde_ok _ 10000 z exemplo_de_fase_10000_50000).
  rewrite Z2Nat.id; lia.
Qed.

(** C4. The phase is "descida" exactly when the remaining distance is below
    150 km; otherwise "subida" exactly when the current altitude is below
    0.85 times the cruise altitude; otherwise "cruzeiro".  At 100 km the
    phase is "descida"; at 1000 km, for every cruise altitude of the table
    and every custom altitude the sidebar accepts (10000 to 50000 ft), half
    the cruise altitude gives "subida" and the cruise altitude itself gives
    "cruzeiro". *)
Theorem fase_classificacao :
  (forall d a c : float,
     (fase d a c = "descida"%string <-> PrimFloat.ltb d 150 = true) /\
     (fase d a c = "subida"%string <->
        PrimFloat.ltb d 150 = false /\ PrimFloat.ltb a (0.85 * c) = true) /\
     (fase d a c = "cruzeiro"%string <->
        PrimFloat.ltb d 150 = false /\ PrimFloat.ltb a (0.85 * c) = false)) /\
  (forall a c : float, fase 100 a c = "descida"%string) /\
  (forall z : Z, 10000 <= z <= 50000 ->
     fase 1000 (0.5 * Z2F z) (Z2F z) = "subida"%string /\
     fase 1000 (Z2F z) (Z2F z) = "cruzeiro"%string) /\
  (forall (t : string) (param : Aeronave.t), aeronaves !! t = Some param ->
     10000 <= Aeronave.altitude_cruzeiro_ft param <= 50000).
Proof.
  repeat split.
  - intros Hf. destruct (fase_cases d a c) as [[Hd _] | [(_ & _ & Hf') | (_ & _ & Hf')]];
      [exact Hd | congruence | congruence].
  - intros Hd. unfold fase. now rewrite Hd.
  - destruct (fase_cases d a c) as [[_ Hf] | [(Hd & _ & _) | (_ & _ & Hf)]];
      [congruence | exact Hd | congruence].
  - destruct (fase_cases d a c) as [[_ Hf] | [(_ & Ha & _) | (_ & _ & Hf)]];
      [congruence | exact Ha | congruence].
  - intros [Hd Ha]. unfold fase. now rewrite Hd, Ha.
  - destruct (fase_cases d a c) as [[_ Hf] | [(_ & _ & Hf) | (Hd & _ & _)]];
      [congruence | congruence | exact Hd].
  - destruct (fase_cases d a c) as [[_ Hf] | [(_ & _ & Hf) | (_ & Ha & _)]];
      [congruence | congruence | exact Ha].
  - intros [Hd Ha]. unfold fase. now rewrite Hd, Ha.
  - apply exemplo_de_fase_ok in H. apply andb_prop in H as [H1 _].
    now apply String.eqb_eq in H1.
  - apply exemplo_de_fase_ok in H. apply andb_prop in H as [_ H2].
    now apply String.eqb_eq in H2.
  - unfold aeronaves in H.
    repeat (apply lookup_insert_Some in H as [[_ <-] | [_ H]]; [cbn; lia|]).
    apply lookup_singleton_Some in H as [_ <-]. cbn. lia.
  - unfold aeronaves in H.
    repeat (apply lookup_insert_Some in H as [[_ <-] | [_ H]]; [cbn; lia|]).
    apply lookup_singleton_Some in H as [_ <-]. cbn. lia.
Qed.

Lemma fase_classificacao_witness :
  fase 1000 (0.5 * Z2F 35000) (Z2F 35000) = "subida"%string /\
  fase 1000 (Z2F 35000) (Z2F 35000) = "cruzeiro"%string.
Proof.
  destruct fase_classificacao as (_ & _ & Hex & _).
  apply (Hex 35000). lia.
Defined.

(** ['Custom'] without the two rates stops at the guard. *)
Lemma obter_parametros_Custom_sem_razoes {N : Type} `{Numero N}
    (vel_custom alt vs vc vd : option N) :
  obter_parametros (Some "Custom"%string) vel_custom alt vs vc vd None None =
    Raise (ValueError "Para aeronave custom, todos os parâmetros devem ser fornecidos").
Proof.
  unfold obter_parametros. cbn [mbind option_bind]. rewrite aeronaves_Custom.
  rewrite bool_decide_eq_true_2 by reflexivity.
  destruct vel_custom, alt; reflexivity.
Qed.

Lemma velocidades_Custom (e : Sidebar.t) :
  Sidebar.tipo_aeronave e = "Custom"%string ->
  velocidades e = (Sidebar.vel_custom e, Sidebar.vel_custom e, Sidebar.vel_custom e).
Proof. intros Ht. unfold velocidades. now rewrite Ht, aeronaves_Custom. Qed.

(** What the adaptive calculation does on the two single-phase branches:
    the remaining distance over the descent, respectively cruise, speed. *)
Lemma tempo_h_descida_cruzeiro (e : Sidebar.t) (altitude_cruzeiro d : float) :
  tempo_h e altitude_cruzeiro d "descida" = truediv d (velocidades e).2 /\
  tempo_h e altitude_cruzeiro d "cruzeiro" = truediv d (velocidades e).1.2.
Proof. unfold tempo_h. destruct (velocidades e) as [[vs vc] vd]. split; reflexivity. Qed.

(** On the climb branch a table aircraft is re-estimated with the full
    profile: its rates come from the table. *)
Lemma tempo_h_subida_tabela (e : Sidebar.t) (altitude_cruzeiro d : float) (param : Aeronave.t) :
  aeronaves !! Sidebar.tipo_aeronave e = Some param ->
  exists r : Perfil.t float,
    calcular_perfil_de_voo d (Some (Sidebar.tipo_aeronave e)) None None None None None None None
      = Ok r /\
    tempo_h e altitude_cruzeiro d "subida" = Ok (Perfil.tempo_total_h r).
Proof.
  intros Hparam.
  assert (Hne : String.eqb (Sidebar.tipo_aeronave e) "Custom" = false).
  { apply String.eqb_neq. intros Heq. rewrite Heq, aeronaves_Custom in Hparam. discriminate. }
  assert (Hobter : forall vel alt : option float,
             obter_parametros (Some (Sidebar.tipo_aeronave e)) vel alt None None None None None =
             Ok (Param.mk (Z2F (Aeronave.altitude_cruzeiro_ft param))
                          (Z2F (Aeronave.vel_subida_kmh param))
                          (Z2F (Aeronave.vel_cruzeiro_kmh param))
                          (Z2F (Aeronave.vel_descida_kmh param))
                          (Z2F (Aeronave.razao_subida_fpm param))
                          (Z2F (Aeronave.razao_descida_fpm param)))).
  { intros vel alt. unfold obter_parametros. cbn [mbind option_bind]. now rewrite Hparam. }
  assert (Hpos : positivo (Z2F (Aeronave.razao_subida_fpm param)) /\
                 positivo (Z2F (Aeronave.razao_descida_fpm param)) /\
                 positivo (Z2F (Aeronave.vel_cruzeiro_kmh param))).
  { unfold aeronaves in Hparam.
    repeat (apply lookup_insert_Some in Hparam as [[_ <-] | [_ Hparam]];
            [repeat split; reflexivity|]).
    apply lookup_singleton_Some in Hparam as [_ <-]. repeat split; reflexivity. }
  destruct Hpos as (Hrs & Hrd & Hvc).
  unfold tempo_h. destruct (velocidades e) as [[v1 v2] v3].
  cbn [String.eqb Ascii.eqb Bool.eqb]. rewrite Hne.
  rewrite !(calcular_perfil_de_voo_eq d _ _ _ _ _ _ _ _ _ (Hobter _ _)).
  rewrite (perfil_de_voo_positivo d (Param.mk _ _ _ _ _ _) Hrs Hrd Hvc).
  eexists. split; reflexivity.
Qed.

(** C5, the climb branch with a custom aircraft.  The re-estimation passes
    [vel_custom] and the cruise altitude but neither rate, so the guard of
    [calcular_perfil_de_voo] raises [ValueError]: no remaining time is
    produced. *)
Theorem tempo_h_subida_Custom_ValueError
    (e : Sidebar.t) (altitude_cruzeiro d : float) (state : option StateVector.t) :
  Sidebar.tipo_aeronave e = "Custom"%string ->
  fase d (altitude_atual_ft state altitude_cruzeiro) altitude_cruzeiro = "subida"%string ->
  atualizar e altitude_cruzeiro state d =
    ("subida"%string,
     Raise (ValueError "Para aeronave custom, todos os parâmetros devem ser fornecidos")).
Proof.
  intros Ht Hf. unfold atualizar. rewrite Hf. f_equal.
  unfold tempo_h. rewrite (velocidades_Custom e Ht), Ht.
  cbn [String.eqb Ascii.eqb Bool.eqb].
  unfold calcular_perfil_de_voo.
  now rewrite obter_parametros_Custom_sem_razoes.
Qed.

Lemma tempo_h_subida_Custom_ValueError_witness :
  let e := Sidebar.mk "Custom" 850%float 35000 2000 1800 in
  let state := Some (StateVector.mk (Some (-15.5)%float) (Some (-47.5)%float)
                                    (Some 180%float) (Some 5000%float)) in
  exists r : Perfil.t float,
    perfil e 1500%float = Ok r /\
    atualizar e (Perfil.altitude_cruzeiro_ft r) state 1000%float =
      ("subida"%string,
       Raise (ValueError "Para aeronave custom, todos os parâmetros devem ser fornecidos")).
Proof.
  intros e state. eexists. split; [vm_compute; reflexivity|].
  apply (tempo_h_subida_Custom_ValueError e); vm_compute; reflexivity.
Defined.

(** ** The live-position fetch *)



(** The primary provider alone: its call is logged, and a first state with
    a falsy latitude, longitude or velocity gives no valid data. *)
Lemma consultar_opensky_invalido (w : Mundo) (icao24 : string) (log : list chamada) :
  match opensky w icao24 with
  | OSStates (st :: _) =>
      truthy (StateVector.latitude st) && truthy (StateVector.longitude st)
      && truthy (StateVector.velocity st) = false
  | _ => True
  end ->
  consultar_opensky icao24 w log =
    (Rastreio.mk false None None (primeiro_state (opensky w icao24)),
     log ++ [get_states icao24]).
Proof.
  intros Hinv. unfold consultar_opensky, api_get_states.
  cbv [mbind IO_bind mret IO_ret].
  destruct (opensky w icao24) as [| |[|st rest]]; try reflexivity.
  cbn [primeiro_state]. now rewrite Hinv.
Qed.


(** After an invalid primary answer the pass is the fallback. *)
Lemma rastrear_fallback (w : Mundo) (icao24 : string) (log : list chamada) :
  consultar_opensky icao24 w log =
    (Rastreio.mk false None None (primeiro_state (opensky w icao24)),
     log ++ [get_states icao24]) ->
  let r0 := Rastreio.mk false None None (primeiro_state (opensky w icao24)) in
  let log1 := (log ++ [get_states icao24]) ++ [requests_get (adsb_url icao24)] in
  rastrear icao24 w log =
    match fst (consultar_adsb_lol icao24 w (log ++ [get_states icao24])) with
    | Some fb =>
        if json_truthy (Fallback.latitude fb) && json_truthy (Fallback.longitude fb)
           && truthy (Fallback.velocity fb)
        then (Rastreio.mk true (Some (Fallback.latitude fb, Fallback.longitude fb))
                          (Fallback.velocity fb) (primeiro_state (opensky w icao24)),
              log1 ++ [st_info])
        else (r0, log1 ++ [st_warning])
    | None => (r0, log1 ++ [st_warning])
    end.
Proof.
  intros Hprim r0 log1. unfold rastrear.
  cbv [mbind IO_bind]. rewrite Hprim. cbn [Rastreio.dados_validos negb].
  unfold consultar_adsb_lol, requests_get_json. cbv [mbind IO_bind mret IO_ret]. cbn [fst].
  destruct (match adsb_lol w (adsb_url icao24) with
            | HttpJson data => adsb_lol_de_json data
            | _ => None
            end) as [fb|]; [|reflexivity].
  destruct (json_truthy (Fallback.latitude fb) && json_truthy (Fallback.longitude fb)
            && truthy (Fallback.velocity fb)); reflexivity.
Qed.


(** A body whose ['ac'] list starts with an aircraft object: if the function
    returns a report, its fields are those of that object, and the velocity
    is [gs * 1.852] for a truthy [gs] and [None] otherwise. *)
Lemma adsb_lol_de_json_Some (data : json) (ac : gmap string json) (rest : list json)
    (fb : Fallback.t) :
  json_index data "ac" = Some (JArr (JObj ac :: rest)) ->
  adsb_lol_de_json data = Some fb ->
  let gs := from_option id JNull (ac !! "gs"%string) in
  Fallback.latitude fb = from_option id JNull (ac !! "lat"%string) /\
  Fallback.longitude fb = from_option id JNull (ac !! "lon"%string) /\
  (if json_truthy gs then Some (Fallback.velocity fb) = Some <$> json_mul gs 1.852%float
   else Fallback.velocity fb = None).
Proof.
  intros Hac Hfb gs. unfold adsb_lol_de_json in Hfb.
  destruct (json_get data "total" (JNum 0)) as [t|]; [|discriminate].
  cbn in Hfb. destruct (json_gt_0 t) as [b|]; [|discriminate].
  cbn in Hfb. destruct (b && json_has_key "ac" data); [|discriminate].
  rewrite Hac in Hfb. cbn in Hfb. fold gs in Hfb.
  destruct (json_truthy gs).
  - destruct (json_mul gs 1.852) as [v|]; [|discriminate].
    cbn in Hfb. injection Hfb as <-. cbn. auto.
  - cbn in Hfb. injection Hfb as <-. cbn. auto.
Qed.




Lemma sem_velocidade_invalido (resp : resposta_opensky) :
  sem_velocidade resp ->
  match resp with
  | OSStates (st :: _) =>
      truthy (StateVector.latitude st) && truthy (StateVector.longitude st)
      && truthy (StateVector.velocity st) = false
  | _ => True
  end.
Proof.
  destruct resp as [| |[|st rest]]; cbn; auto.
  intros ->. apply andb_false_r.
Qed.

Lemma consultar_adsb_lol_json (w : Mundo) (icao24 : string) (log : list chamada)
    (data : json) :
  adsb_lol w (adsb_url icao24) = HttpJson data ->
  consultar_adsb_lol icao24 w log =
    (adsb_lol_de_json data, log ++ [requests_get (adsb_url icao24)]).
Proof.
  intros Hresp. unfold consultar_adsb_lol, requests_get_json.
  cbv [mbind IO_bind mret IO_ret]. now rewrite Hresp.
Qed.

(** C7. When the primary provider yields no usable velocity and the report
    of the secondary provider carries a ground speed [gs], the velocity of
    the live data the pass ends with is [gs * 1.852]. *)
Theorem velocidade_do_fallback
    (w : Mundo) (icao24 : string) (data : json) (ac : gmap string json)
    (rest : list json) (g : float) :
  sem_velocidade (opensky w icao24) ->
  adsb_lol w (adsb_url icao24) = HttpJson data ->
  json_index data "ac" = Some (JArr (JObj ac :: rest)) ->
  ac !! "gs"%string = Some (JNum g) ->
  Rastreio.dados_validos (fst (rastrear icao24 w [])) = true ->
  Rastreio.velocidade_kmh (fst (rastrear icao24 w [])) = Some (g * 1.852)%float.
Proof.
  intros Hprim Hresp Hac Hgs.
  rewrite (rastrear_fallback w icao24 []
             (consultar_opensky_invalido w icao24 [] (sem_velocidade_invalido _ Hprim))).
  rewrite (consultar_adsb_lol_json w icao24 _ data Hresp). cbn [fst].
  destruct (adsb_lol_de_json data) as [fb|] eqn:Hfb; [|discriminate].
  destruct (adsb_lol_de_json_Some data ac rest fb Hac Hfb) as (_ & _ & Hvel).
  rewrite Hgs in Hvel. cbn in Hvel.
  destruct (json_truthy (Fallback.latitude fb) && json_truthy (Fallback.longitude fb)
            && truthy (Fallback.velocity fb)) eqn:Hok; [|discriminate].
  intros _. cbn.
  destruct (float_truthy g).
  - now injection Hvel as ->.
  - rewrite Hvel in Hok. cbn in Hok. now rewrite andb_false_r in Hok.
Qed.

Lemma velocidade_do_fallback_witness :
  let ac : gmap string json :=
    {[ "lat"%string := JNum (-15.87)%float; "lon"%string := JNum (-47.92)%float;
       "gs"%string := JNum 450%float ]} in
  let w := {| opensky := fun _ =>
                OSStates [StateVector.mk (Some (-15.8)%float) (Some (-47.9)%float) None None];
              adsb_lol := fun _ =>
                HttpJson (JObj {[ "total"%string := JNum 1%float;
                                  "ac"%string := JArr [JObj ac] ]}) |} in
  Rastreio.velocidade_kmh (fst (rastrear "e49102" w [])) = Some (450 * 1.852)%float.
Proof.
  intros ac w.
  apply (velocidade_do_fallback w "e49102"%string
           (JObj {[ "total"%string := JNum 1%float; "ac"%string := JArr [JObj ac] ]})
           ac [] 450%float); vm_compute; reflexivity.
Defined.



(** * Further properties *)

(** ** The estimator: which exception, and when *)

Section EstimadorErros.
Context {N : Type} `{Numero N}.


Lemma obter_parametros_desconhecido (tipo : option string)
    (vel_custom alt vs vc vd rs rd : option N) :
  (forall t, tipo = Some t -> aeronaves !! t = None /\ t <> "Custom"%string) ->
  obter_parametros tipo vel_custom alt vs vc vd rs rd =
    Raise (ValueError "Tipo de aeronave não especificado corretamente").
Proof.
  intros Htipo. unfold obter_parametros.
  destruct tipo as [t|]; cbn [mbind option_bind].
  - destruct (Htipo t eq_refl) as [-> Hne].
    rewrite bool_decide_eq_false_2 by congruence. reflexivity.
  - rewrite bool_decide_eq_false_2 by discriminate. reflexivity.
Qed.

Lemma obter_parametros_Custom (vel_custom alt vs vc vd rs rd : option N) :
  obter_parametros (Some "Custom"%string) vel_custom alt vs vc vd rs rd =
    match vel_custom, alt, rs, rd with
    | Some vel, Some a, Some s, Some d => Ok (Param.mk a vel vel vel s d)
    | _, _, _, _ =>
        Raise (ValueError "Para aeronave custom, todos os parâmetros devem ser fornecidos")
    end.
Proof.
  unfold obter_parametros. cbn [mbind option_bind]. rewrite aeronaves_Custom.
  now rewrite bool_decide_eq_true_2 by reflexivity.
Qed.

Lemma obter_parametros_tabela (t : string) (param : Aeronave.t)
    (vel_custom alt vs vc vd rs rd : option N) :
  aeronaves !! t = Some param ->
  obter_parametros (Some t) vel_custom alt vs vc vd rs rd =
    Ok (Param.mk (of_int (Aeronave.altitude_cruzeiro_ft param))
                 (of_int (Aeronave.vel_subida_kmh param))
                 (of_int (Aeronave.vel_cruzeiro_kmh param))
                 (of_int (Aeronave.vel_descida_kmh param))
                 (of_int (Aeronave.razao_subida_fpm param))
                 (of_int (Aeronave.razao_descida_fpm param))).
Proof. intros Ht. unfold obter_parametros. cbn [mbind option_bind]. now rewrite Ht. Qed.
End EstimadorErros.

(** X1. An aircraft type that is neither a key of the table nor the string
    'Custom' (an absent type included) makes [calcular_perfil_de_voo] raise
    the second [ValueError], whatever the other arguments are. *)
Theorem tipo_desconhecido_ValueError {N : Type} `{Numero N}
    (D : N) (tipo : option string) (vel_custom alt vs vc vd rs rd : option N) :
  (forall t, tipo = Some t -> aeronaves !! t = None /\ t <> "Custom"%string) ->
  calcular_perfil_de_voo D tipo vel_custom alt vs vc vd rs rd =
    Raise (ValueError "Tipo de aeronave não especificado corretamente").
Proof.
  intros Htipo. unfold calcular_perfil_de_voo.
  now rewrite (obter_parametros_desconhecido tipo _ _ _ _ _ _ _ Htipo).
Qed.

Lemma tipo_desconhecido_ValueError_witness :
  calcular_perfil_de_voo 357%float (Some "VC-1"%string)
    (Some 850%float) (Some 35000%float) None None None (Some 2000%float) (Some 1800%float) =
    Raise (ValueError "Tipo de aeronave não especificado corretamente") /\
  calcular_perfil_de_voo 357%float None
    (Some 850%float) (Some 35000%float) None None None (Some 2000%float) (Some 1800%float) =
    Raise (ValueError "Tipo de aeronave não especificado corretamente").
Proof.
  split; apply (tipo_desconhecido_ValueError (N := float)).
  - intros t [= <-]. split; [reflexivity | discriminate].
  - intros t [=].
Defined.



(** X3. The result never depends on the three speed arguments of the
    signature, and for an aircraft of the table it depends on the distance
    alone: every optional argument, the cruise altitude included, is
    replaced by the table's value. *)
Theorem argumentos_ignorados {N : Type} `{Numero N} (D : N) :
  (forall tipo vel_custom alt vs vc vd rs rd,
     calcular_perfil_de_voo D tipo vel_custom alt vs vc vd rs rd =
     calcular_perfil_de_voo D tipo vel_custom alt None None None rs rd) /\
  (forall (t : string) vel_custom alt vs vc vd rs rd,
     is_Some (aeronaves !! t) ->
     calcular_perfil_de_voo D (Some t) vel_custom alt vs vc vd rs rd =
     calcular_perfil_de_voo D (Some t) None None None None None None None).
Proof.
  split.
  - reflexivity.
  - intros t vel_custom alt vs vc vd rs rd [param Ht]. unfold calcular_perfil_de_voo.
    now rewrite !(obter_parametros_tabela t param _ _ _ _ _ _ _ Ht).
Qed.

Lemma argumentos_ignorados_witness :
  calcular_perfil_de_voo 357%float (Some "VC-1 (Airbus A319)"%string)
    (Some 100%float) (Some 10000%float) None None None (Some 1%float) None =
  calcular_perfil_de_voo 357%float (Some "VC-1 (Airbus A319)"%string)
    None None None None None None None.
Proof.
  destruct (argumentos_ignorados (N := float) 357%float) as [_ Htab].
  apply Htab. eexists. reflexivity.
Defined.

(** X4. For a selected profile, [ZeroDivisionError] is raised exactly when
    the climb rate is zero, or the descent rate is zero, or the cruise
    speed is zero while the cruise distance is positive; a zero cruise
    speed on a route with no cruise leg raises nothing. *)
Theorem calcular_perfil_de_voo_ZeroDivisionError_iff {N : Type} `{Numero N}
    (D : N) (tipo : option string) (vel_custom alt vs vc vd rs rd : option N)
    (p : Param.t N) :
  obter_parametros tipo vel_custom alt vs vc vd rs rd = Ok p ->
  let ts := quot (quot (Param.altitude_cruzeiro_ft p) (Param.razao_subida_fpm p)) (of_int 60) in
  let td := quot (quot (Param.altitude_cruzeiro_ft p) (Param.razao_descida_fpm p)) (of_int 60) in
  let dc := max0 (sub (sub D (mul (Param.vel_subida_kmh p) ts))
                      (mul (Param.vel_descida_kmh p) td)) in
  calcular_perfil_de_voo D tipo vel_custom alt vs vc vd rs rd = Raise ZeroDivisionError <->
  (eq0 (Param.razao_subida_fpm p) = true \/
   eq0 (Param.razao_descida_fpm p) = true \/
   (gt dc (of_int 0) = true /\ eq0 (Param.vel_cruzeiro_kmh p) = true)).
Proof.
  intros Hp ts td dc.
  rewrite (calcular_perfil_de_voo_eq D _ _ _ _ _ _ _ _ p Hp).
  unfold perfil_de_voo, truediv. rewrite eq0_60.
  destruct (eq0 (Param.razao_subida_fpm p)); cbn; [tauto|].
  destruct (eq0 (Param.razao_descida_fpm p)); cbn; [tauto|].
  fold ts td dc.
  destruct (gt dc (of_int 0)); cbn.
  - destruct (eq0 (Param.vel_cruzeiro_kmh p)); cbn; [tauto|].
    split; [discriminate | intros [? | [? | [_ ?]]]; discriminate].
  - split; [discriminate | intros [? | [? | [? _]]]; discriminate].
Qed.

Lemma calcular_perfil_de_voo_ZeroDivisionError_iff_witness :
  calcular_perfil_de_voo 357%float (Some "Custom"%string)
    (Some 850%float) (Some 35000%float) None None None (Some 0%float) (Some 1800%float)
    = Raise ZeroDivisionError /\
  calcular_perfil_de_voo 0%float (Some "Custom"%string)
    (Some 0%float) (Some 35000%float) None None None (Some 2000%float) (Some 1800%float)
    <> Raise ZeroDivisionError.
Proof.
  split.
  - apply (calcular_perfil_de_voo_ZeroDivisionError_iff (N := float) 357%float
             (Some "Custom"%string) (Some 850%float) (Some 35000%float) None None None
             (Some 0%float) (Some 1800%float)
             (Param.mk 35000%float 850%float 850%float 850%float 0%float 1800%float));
      [reflexivity | left; reflexivity].
  - intros Hraise.
    apply (calcular_perfil_de_voo_ZeroDivisionError_iff (N := float) 0%float
             (Some "Custom"%string) (Some 0%float) (Some 35000%float) None None None
             (Some 2000%float) (Some 1800%float)
             (Param.mk 35000%float 0%float 0%float 0%float 2000%float 1800%float))
      in Hraise; [|reflexivity].
    destruct Hraise as [Hz | [Hz | [Hz _]]]; vm_compute in Hz; discriminate.
Defined.

(** ** The estimator on the inputs the application gives it *)

Lemma tabela_positiva (t : string) (param : Aeronave.t) :
  aeronaves !! t = Some param ->
  positivo (Z2F (Aeronave.razao_subida_fpm param)) /\
  positivo (Z2F (Aeronave.razao_descida_fpm param)) /\
  positivo (Z2F (Aeronave.vel_cruzeiro_kmh param)) /\
  positivo (Z2F (Aeronave.vel_descida_kmh param)).
Proof.
  intros Ht. unfold aeronaves in Ht.
  repeat (apply lookup_insert_Some in Ht as [[_ <-] | [_ Ht]];
          [repeat split; reflexivity|]).
  apply lookup_singleton_Some in Ht as [_ <-]. repeat split; reflexivity.
Qed.

Lemma todos_em_ok (f : Z -> bool) (n : nat) : forall z0 z : Z,
  todos_em f n z0 = true -> z0 <= z < z0 + Z.of_nat n -> f z = true.
Proof.
  induction n as [|n IH]; intros z0 z Hall Hz; [lia|].
  cbn [todos_em] in Hall. apply andb_prop in Hall as [Hz0 Hrest].
  destruct (Z.eq_dec z z0) as [->|Hne]; [exact Hz0|].
  apply (IH (z0 + 1)); [exact Hrest | lia].
Qed.

Lemma razoes_da_sidebar_positivas :
  todos_em (fun z => PrimFloat.ltb 0 (Z2F z)) (Z.to_nat 2501) 500 = true.
Proof. vm_compute. reflexivity. Qed.

Lemma razao_da_sidebar_positiva (z : Z) : 500 <= z <= 3000 -> positivo (Z2F z).
Proof.
  intros Hz. unfold positivo. cbn [gt of_int Numero_float].
  change (Z2F 0) with 0%float.
  apply (todos_em_ok _ _ 500 z razoes_da_sidebar_positivas).
  rewrite Z2Nat.id; lia.
Qed.

Lemma float_ge_100_positivo (v : float) : PrimFloat.leb 100 v = true -> positivo v.
Proof.
  unfold positivo. cbn [gt of_int Numero_float]. change (Z2F 0) with 0%float.
  rewrite FloatAxioms.leb_spec, FloatAxioms.ltb_spec.
  change (Prim2SF 0) with (S754_zero false).
  destruct (Prim2SF v) as [s|s| |s m e]; try destruct s; vm_compute; congruence.
Qed.

(** X5. For each aircraft of the table the call returns a profile for every
    binary64 distance (negative, infinite and NaN included) and whatever the
    optional arguments are; the cruise altitude of the result is the
    table's. *)
Theorem tabela_sempre_calcula (t : string) (param : Aeronave.t) (D : float)
    (vel_custom alt vs vc vd rs rd : option float) :
  aeronaves !! t = Some param ->
  exists r : Perfil.t float,
    calcular_perfil_de_voo D (Some t) vel_custom alt vs vc vd rs rd = Ok r /\
    Perfil.altitude_cruzeiro_ft r = Z2F (Aeronave.altitude_cruzeiro_ft param).
Proof.
  intros Ht. destruct (tabela_positiva t param Ht) as (Hrs & Hrd & Hvc & _).
  unfold calcular_perfil_de_voo.
  rewrite (obter_parametros_tabela t param _ _ _ _ _ _ _ Ht). cbn [mbind resultado_bind].
  rewrite (perfil_de_voo_positivo D (Param.mk _ _ _ _ _ _) Hrs Hrd Hvc).
  eexists. split; reflexivity.
Qed.

Lemma tabela_sempre_calcula_witness :
  exists r : Perfil.t float,
    calcular_perfil_de_voo nan (Some "KC-30 (Airbus A330)"%string)
      None (Some 1%float) None None None None None = Ok r /\
    Perfil.altitude_cruzeiro_ft r = Z2F 41000.
Proof.
  apply (tabela_sempre_calcula "KC-30 (Airbus A330)"
           (Aeronave.mk 41000 550 880 650 2000 2000 362)).
  reflexivity.
Defined.

(** X6. The theoretical estimate of the script never raises: for an
    aircraft of the table always, and for custom values within what the
    sidebar accepts (speed at least 100 km/h, both rates between 500 and
    3000 ft/min) for every distance; with custom values the cruise altitude
    of the result is the one entered. *)
Theorem perfil_nunca_falha (e : Sidebar.t) (distancia : float) :
  (aeronaves !! Sidebar.tipo_aeronave e = None ->
     PrimFloat.leb 100 (Sidebar.vel_custom e) = true /\
     500 <= Sidebar.razao_subida_custom e <= 3000 /\
     500 <= Sidebar.razao_descida_custom e <= 3000) ->
  exists r : Perfil.t float,
    perfil e distancia = Ok r /\
    (aeronaves !! Sidebar.tipo_aeronave e = None ->
       Perfil.altitude_cruzeiro_ft r = Z2F (Sidebar.altitude_custom e)).
Proof.
  intros Hbounds. unfold perfil.
  destruct (aeronaves !! Sidebar.tipo_aeronave e) as [param|] eqn:Ht.
  - rewrite bool_decide_eq_true_2 by eauto.
    destruct (tabela_positiva _ param Ht) as (Hrs & Hrd & Hvc & _).
    unfold calcular_perfil_de_voo.
    rewrite (obter_parametros_tabela _ param _ _ _ _ _ _ _ Ht). cbn [mbind resultado_bind].
    rewrite (perfil_de_voo_positivo distancia (Param.mk _ _ _ _ _ _) Hrs Hrd Hvc).
    eexists. split; [reflexivity | discriminate].
  - rewrite bool_decide_eq_false_2 by (intros [? ?]; discriminate).
    destruct (Hbounds eq_refl) as (Hvel & Hrs & Hrd).
    unfold calcular_perfil_de_voo. rewrite obter_parametros_Custom.
    cbn [mbind resultado_bind].
    rewrite (perfil_de_voo_positivo distancia (Param.mk _ _ _ _ _ _)
               (razao_da_sidebar_positiva _ Hrs) (razao_da_sidebar_positiva _ Hrd)
               (float_ge_100_positivo _ Hvel)).
    eexists. split; reflexivity.
Qed.

Lemma perfil_nunca_falha_witness :
  exists r : Perfil.t float,
    perfil (Sidebar.mk "Custom" 850%float 35000 2000 1800) 357%float = Ok r /\
    Perfil.altitude_cruzeiro_ft r = Z2F 35000.
Proof.
  destruct (perfil_nunca_falha (Sidebar.mk "Custom" 850%float 35000 2000 1800) 357%float)
    as (r & Hr & Halt).
  - intros _. cbn. repeat split; first [reflexivity | lia].
  - exists r. split; [exact Hr | apply Halt; reflexivity].
Defined.

(** ** The re-estimator *)

Lemma velocidades_tabela (e : Sidebar.t) (param : Aeronave.t) :
  aeronaves !! Sidebar.tipo_aeronave e = Some param ->
  velocidades e = (Z2F (Aeronave.vel_subida_kmh param),
                   Z2F (Aeronave.vel_cruzeiro_kmh param),
                   Z2F (Aeronave.vel_descida_kmh param)).
Proof. intros Ht. unfold velocidades. now rewrite Ht. Qed.

(** X7. A live update fails only for a custom aircraft in the climb phase.
    For an aircraft of the table, and for a custom aircraft with a nonzero
    speed, the remaining time is an exception exactly when the aircraft is
    'Custom' and the phase is "subida". *)
Theorem atualizar_falha_so_na_subida_Custom
    (e : Sidebar.t) (altitude_cruzeiro d : float) (state : option StateVector.t) :
  is_Some (aeronaves !! Sidebar.tipo_aeronave e) \/
  (Sidebar.tipo_aeronave e = "Custom"%string /\
   PrimFloat.eqb (Sidebar.vel_custom e) 0 = false) ->
  (exists exc, snd (atualizar e altitude_cruzeiro state d) = Raise exc) <->
  (Sidebar.tipo_aeronave e = "Custom"%string /\
   fst (atualizar e altitude_cruzeiro state d) = "subida"%string).
Proof.
  intros Hsel. unfold atualizar. cbn [fst snd].
  set (a := altitude_atual_ft state altitude_cruzeiro).
  destruct Hsel as [[param Ht] | [Hc Hvel]].
  - assert (Hne : Sidebar.tipo_aeronave e <> "Custom"%string).
    { intros Heq. rewrite Heq, aeronaves_Custom in Ht. discriminate. }
    destruct (tabela_positiva _ param Ht) as (_ & _ & Hvc & Hvd).
    split; [|intros [Hc _]; contradiction].
    intros [exc Hraise]. exfalso.
    destruct (fase_cases d a altitude_cruzeiro) as [[_ Hf] | [(_ & _ & Hf) | (_ & _ & Hf)]];
      rewrite Hf in Hraise.
    + rewrite (proj1 (tempo_h_descida_cruzeiro e altitude_cruzeiro d)) in Hraise.
      rewrite (velocidades_tabela e param Ht) in Hraise. cbn [snd] in Hraise.
      rewrite (truediv_positivo d _ Hvd) in Hraise. discriminate.
    + destruct (tempo_h_subida_tabela e altitude_cruzeiro d param Ht) as (r & _ & Hr).
      rewrite Hr in Hraise. discriminate.
    + rewrite (proj2 (tempo_h_descida_cruzeiro e altitude_cruzeiro d)) in Hraise.
      rewrite (velocidades_tabela e param Ht) in Hraise. cbn [fst snd] in Hraise.
      rewrite (truediv_positivo d _ Hvc) in Hraise. discriminate.
  - assert (Hdiv : truediv d (Sidebar.vel_custom e) = Ok (d / Sidebar.vel_custom e)%float).
    { unfold truediv. cbn [eq0 quot Numero_float]. now rewrite Hvel. }
    destruct (fase_cases d a altitude_cruzeiro) as [[_ Hf] | [(_ & _ & Hf) | (_ & _ & Hf)]];
      rewrite Hf.
    + rewrite (proj1 (tempo_h_descida_cruzeiro e altitude_cruzeiro d)).
      rewrite (velocidades_Custom e Hc). cbn [snd]. rewrite Hdiv.
      split; [intros [exc Hx]; discriminate | intros [_ Hx]; discriminate].
    + split; [auto|]. intros _. unfold tempo_h.
      rewrite (velocidades_Custom e Hc), Hc. cbn [String.eqb Ascii.eqb Bool.eqb].
      unfold calcular_perfil_de_voo. rewrite obter_parametros_Custom_sem_razoes.
      eexists. reflexivity.
    + rewrite (proj2 (tempo_h_descida_cruzeiro e altitude_cruzeiro d)).
      rewrite (velocidades_Custom e Hc). cbn [fst snd]. rewrite Hdiv.
      split; [intros [exc Hx]; discriminate | intros [_ Hx]; discriminate].
Qed.

Lemma atualizar_falha_so_na_subida_Custom_witness :
  let state := Some (StateVector.mk (Some (-15.5)%float) (Some (-47.5)%float)
                                    (Some 180%float) (Some 5000%float)) in
  ~ (exists exc,
       snd (atualizar (Sidebar.mk "VC-2 (Embraer 190)" 0%float 0 0 0)
                      37000%float state 1000%float) = Raise exc) /\
  ~ (exists exc,
       snd (atualizar (Sidebar.mk "Custom" 850%float 35000 2000 1800)
                      35000%float state 100%float) = Raise exc).
Proof.
  intros state. split; intros Hraise.
  - apply atualizar_falha_so_na_subida_Custom in Hraise as [Hc _]; [discriminate|].
    left. eexists. reflexivity.
  - apply atualizar_falha_so_na_subida_Custom in Hraise as [_ Hf];
      [vm_compute in Hf; discriminate|].
    right. split; reflexivity.
Defined.

(** X8. Without a barometric altitude (no state kept from the primary
    provider, or a state whose [baro_altitude] is [None] or [0]) the current
    altitude is taken to be the cruise altitude, and for every cruise
    altitude from 10000 to 50000 ft the phase is then never "subida": it is
    "descida" below 150 km and "cruzeiro" otherwise. *)
Theorem sem_altitude_barometrica_sem_subida
    (state : option StateVector.t) (z : Z) (d : float) :
  10000 <= z <= 50000 ->
  (forall st, state = Some st -> falsy (StateVector.baro_altitude st)) ->
  altitude_atual_ft state (Z2F z) = Z2F z /\
  fase d (altitude_atual_ft state (Z2F z)) (Z2F z) =
    (if PrimFloat.ltb d 150 then "descida" else "cruzeiro")%string.
Proof.
  intros Hz Hbaro.
  assert (Halt : altitude_atual_ft state (Z2F z) = Z2F z).
  { unfold altitude_atual_ft. destruct state as [st|]; [|reflexivity].
    destruct (Hbaro st eq_refl) as [-> | ->]; reflexivity. }
  split; [exact Halt|]. rewrite Halt.
  pose proof (exemplo_de_fase_ok z Hz) as Hex.
  apply andb_prop in Hex as [_ Hcr]. apply String.eqb_eq in Hcr.
  unfold fase in *. change (PrimFloat.ltb 1000 150) with false in Hcr.
  destruct (PrimFloat.ltb d 150); [reflexivity|].
  destruct (PrimFloat.ltb (Z2F z) (0.85 * Z2F z)); [discriminate | reflexivity].
Qed.

Lemma sem_altitude_barometrica_sem_subida_witness :
  fase 1000 (altitude_atual_ft None (Z2F 41000)) (Z2F 41000) = "cruzeiro"%string.
Proof.
  apply (sem_altitude_barometrica_sem_subida None 41000 1000%float); [lia|].
  intros st [=].
Defined.

(** ** The live-position fetch, on every answer of the providers *)

(** The primary provider alone, whatever it answers. *)
Lemma consultar_opensky_eq (w : Mundo) (icao24 : string) (log : list chamada) :
  consultar_opensky icao24 w log =
    (match opensky w icao24 with
     | OSStates (st :: _) =>
         if truthy (StateVector.latitude st) && truthy (StateVector.longitude st)
            && truthy (StateVector.velocity st)
         then Rastreio.mk true
                (Some (json_of (StateVector.latitude st), json_of (StateVector.longitude st)))
                ((fun v => v * 3.6)%float <$> StateVector.velocity st) (Some st)
         else Rastreio.mk false None None (Some st)
     | _ => Rastreio.mk false None None None
     end, log ++ [get_states icao24]).
Proof.
  unfold consultar_opensky, api_get_states. cbv [mbind IO_bind mret IO_ret].
  destruct (opensky w icao24) as [| |[|st rest]]; reflexivity.
Qed.

Lemma rastrear_primario (w : Mundo) (icao24 : string) (log : list chamada)
    (st : StateVector.t) (rest : list StateVector.t) :
  opensky w icao24 = OSStates (st :: rest) ->
  truthy (StateVector.latitude st) && truthy (StateVector.longitude st)
    && truthy (StateVector.velocity st) = true ->
  rastrear icao24 w log =
    (Rastreio.mk true
       (Some (json_of (StateVector.latitude st), json_of (StateVector.longitude st)))
       ((fun v => v * 3.6)%float <$> StateVector.velocity st) (Some st),
     log ++ [get_states icao24]).
Proof.
  intros Hresp Hok. unfold rastrear. cbv [mbind IO_bind].
  rewrite consultar_opensky_eq, Hresp, Hok. reflexivity.
Qed.

(** Either the first state of the primary answer is usable, or the answer
    is invalid in the sense of [consultar_opensky_invalido]. *)
Lemma opensky_valido_ou_invalido (resp : resposta_opensky) :
  (exists st rest, resp = OSStates (st :: rest) /\
     truthy (StateVector.latitude st) && truthy (StateVector.longitude st)
       && truthy (StateVector.velocity st) = true) \/
  match resp with
  | OSStates (st :: _) =>
      truthy (StateVector.latitude st) && truthy (StateVector.longitude st)
      && truthy (StateVector.velocity st) = false
  | _ => True
  end.
Proof.
  destruct resp as [| |[|st rest]]; auto.
  destruct (truthy (StateVector.latitude st) && truthy (StateVector.longitude st)
            && truthy (StateVector.velocity st)) eqn:Hok; eauto.
Qed.

(** X9. When the first state of the primary provider has a truthy
    latitude, longitude and velocity, the pass uses it and never consults
    the secondary provider: its only call is [get_states], no notice is
    shown, the position is that state's and the velocity is its velocity
    (m/s) times 3.6. *)
Theorem primario_valido_sem_fallback
    (w : Mundo) (icao24 : string) (log : list chamada)
    (st : StateVector.t) (rest : list StateVector.t) (lat lon vel : float) :
  opensky w icao24 = OSStates (st :: rest) ->
  StateVector.latitude st = Some lat -> float_truthy lat = true ->
  StateVector.longitude st = Some lon -> float_truthy lon = true ->
  StateVector.velocity st = Some vel -> float_truthy vel = true ->
  rastrear icao24 w log =
    (Rastreio.mk true (Some (JNum lat, JNum lon)) (Some (vel * 3.6)%float) (Some st),
     log ++ [get_states icao24]) /\
  consultas_adsb_lol (snd (rastrear icao24 w [])) = 0%nat.
Proof.
  intros Hresp Hlat Hlat1 Hlon Hlon1 Hvel Hvel1.
  assert (Hok : truthy (StateVector.latitude st) && truthy (StateVector.longitude st)
                && truthy (StateVector.velocity st) = true).
  { rewrite Hlat, Hlon, Hvel. cbn. now rewrite Hlat1, Hlon1, Hvel1. }
  rewrite !(rastrear_primario w icao24 _ st rest Hresp Hok).
  rewrite Hlat, Hlon, Hvel. split; reflexivity.
Qed.

Lemma primario_valido_sem_fallback_witness :
  let st := StateVector.mk (Some (-15.8)%float) (Some (-47.9)%float) (Some 200%float)
                           (Some 9000%float) in
  let w := {| opensky := fun _ => OSStates [st]; adsb_lol := fun _ => HttpRaise |} in
  rastrear "e49102" w [] =
    (Rastreio.mk true (Some (JNum (-15.8)%float, JNum (-47.9)%float))
                 (Some (200 * 3.6)%float) (Some st),
     [get_states "e49102"]).
Proof.
  intros st w.
  apply (primario_valido_sem_fallback w "e49102"%string [] st []
           (-15.8)%float (-47.9)%float 200%float); reflexivity.
Defined.

(** The three ways a pass can end. *)
Lemma rastrear_casos (w : Mundo) (icao24 : string) (log : list chamada) :
  (Rastreio.dados_validos (fst (rastrear icao24 w log)) = true /\
   snd (rastrear icao24 w log) = log ++ [get_states icao24]) \/
  (Rastreio.dados_validos (fst (rastrear icao24 w log)) = true /\
   snd (rastrear icao24 w log) =
     log ++ [get_states icao24; requests_get (adsb_url icao24); st_info]) \/
  (Rastreio.dados_validos (fst (rastrear icao24 w log)) = false /\
   snd (rastrear icao24 w log) =
     log ++ [get_states icao24; requests_get (adsb_url icao24); st_warning]).
Proof.
  destruct (opensky_valido_ou_invalido (opensky w icao24))
    as [(st & rest & Hresp & Hok) | Hinv].
  - rewrite (rastrear_primario w icao24 log st rest Hresp Hok). left. split; reflexivity.
  - rewrite (rastrear_fallback w icao24 log (consultar_opensky_invalido w icao24 log Hinv)).
    right. destruct (fst (consultar_adsb_lol icao24 w _)) as [fb|].
    + destruct (_ && _); cbn [fst snd]; rewrite <- !app_assoc;
        [left | right]; split; reflexivity.
    + cbn [fst snd]. rewrite <- !app_assoc. right. split; reflexivity.
Qed.

(** X10. Whatever the two providers answer, a pass adds to the log one of
    three sequences: the primary call alone, with valid data; the primary
    call, one secondary request and the information notice, with valid
    data; or the primary call, one secondary request and the warning,
    without valid data.  So the primary provider is called exactly once,
    the secondary at most once, and a notice is shown only after the
    secondary was consulted. *)
Theorem rastrear_log (w : Mundo) (icao24 : string) (log : list chamada) :
  exists passo : list chamada,
    snd (rastrear icao24 w log) = log ++ passo /\
    passo_do_log icao24 (Rastreio.dados_validos (fst (rastrear icao24 w log))) passo.
Proof.
  destruct (rastrear_casos w icao24 log) as [[Hv Hlog] | [[Hv Hlog] | [Hv Hlog]]];
    rewrite Hv, Hlog; eexists; (split; [reflexivity | constructor]).
Qed.

(** X11. At the end of a pass [dados_validos] holds exactly when a position
    is bound, and exactly when a velocity is bound: the script, which reads
    [posicao] and [velocidade_kmh] only under [dados_validos], never reads
    an unbound one. *)
Theorem dados_validos_posicao_velocidade (w : Mundo) (icao24 : string) (log : list chamada) :
  let r := fst (rastrear icao24 w log) in
  (Rastreio.dados_validos r = true <-> is_Some (Rastreio.posicao r)) /\
  (Rastreio.dados_validos r = true <-> is_Some (Rastreio.velocidade_kmh r)).
Proof.
  assert (Hsome : forall o : option float, truthy o = true -> is_Some o).
  { intros [x|]; [eauto | discriminate]. }
  assert (Hnone : forall A : Type, ~ is_Some (@None A)).
  { intros A [x Hx]. discriminate. }
  destruct (opensky_valido_ou_invalido (opensky w icao24))
    as [(st & rest & Hresp & Hok) | Hinv].
  - rewrite (rastrear_primario w icao24 log st rest Hresp Hok). cbn.
    apply andb_prop in Hok as [_ Hvel]. destruct (Hsome _ Hvel) as [v ->].
    cbn. split; split; eauto.
  - rewrite (rastrear_fallback w icao24 log (consultar_opensky_invalido w icao24 log Hinv)).
    destruct (fst (consultar_adsb_lol icao24 w _)) as [fb|].
    + destruct (json_truthy (Fallback.latitude fb) && json_truthy (Fallback.longitude fb)
                && truthy (Fallback.velocity fb)) eqn:Hok; cbn.
      * apply andb_prop in Hok as [_ Hvel]. split; split; eauto.
      * split; split; first [discriminate | intros Hx; now apply Hnone in Hx].
    + cbn. split; split; first [discriminate | intros Hx; now apply Hnone in Hx].
Qed.

(** X12. The state kept for the altitude is the first state of the primary
    answer whenever there is one, also when that state was rejected and the
    position and velocity come from the secondary provider; it is [None]
    only when the primary provider returned no state. *)
Theorem rastrear_state (w : Mundo) (icao24 : string) (log : list chamada) :
  Rastreio.state (fst (rastrear icao24 w log)) = primeiro_state (opensky w icao24).
Proof.
  destruct (opensky_valido_ou_invalido (opensky w icao24))
    as [(st & rest & Hresp & Hok) | Hinv].
  - rewrite (rastrear_primario w icao24 log st rest Hresp Hok), Hresp. reflexivity.
  - rewrite (rastrear_fallback w icao24 log (consultar_opensky_invalido w icao24 log Hinv)).
    destruct (fst (consultar_adsb_lol icao24 w _)) as [fb|]; [|reflexivity].
    destruct (_ && _); reflexivity.
Qed.


(** ** The secondary provider: which bodies give a report *)





Lemma consultar_opensky_invalido_inv (w : Mundo) (icao24 : string) (log : list chamada) :
  Rastreio.dados_validos (fst (consultar_opensky icao24 w log)) = false ->
  match opensky w icao24 with
  | OSStates (st :: _) =>
      truthy (StateVector.latitude st) && truthy (StateVector.longitude st)
      && truthy (StateVector.velocity st) = false
  | _ => True
  end.
Proof.
  rewrite consultar_opensky_eq. cbn [fst].
  destruct (opensky w icao24) as [| |[|st rest]]; auto.
  destruct (_ && _); [discriminate | reflexivity].
Qed.

(** X15. Once the primary provider gave no valid data, a report of the
    secondary provider is accepted on truthiness alone: the pass ends with
    valid data exactly when the report's latitude and longitude are truthy
    values of any JSON type and its velocity is a nonzero number, and the
    position and velocity of the pass are then the report's. *)
Theorem fallback_aceito_por_truthiness
    (w : Mundo) (icao24 : string) (log : list chamada) (data : json) (fb : Fallback.t) :
  Rastreio.dados_validos (fst (consultar_opensky icao24 w log)) = false ->
  adsb_lol w (adsb_url icao24) = HttpJson data ->
  adsb_lol_de_json data = Some fb ->
  let r := fst (rastrear icao24 w log) in
  (Rastreio.dados_validos r = true <->
     json_truthy (Fallback.latitude fb) = true /\
     json_truthy (Fallback.longitude fb) = true /\
     truthy (Fallback.velocity fb) = true) /\
  (Rastreio.dados_validos r = true ->
     Rastreio.posicao r = Some (Fallback.latitude fb, Fallback.longitude fb) /\
     Rastreio.velocidade_kmh r = Fallback.velocity fb).
Proof.
  intros Hprim Hresp Hfb r. subst r.
  apply consultar_opensky_invalido_inv in Hprim.
  rewrite (rastrear_fallback w icao24 log (consultar_opensky_invalido w icao24 log Hprim)).
  rewrite (consultar_adsb_lol_json w icao24 _ data Hresp). cbn [fst]. rewrite Hfb.
  destruct (json_truthy (Fallback.latitude fb)), (json_truthy (Fallback.longitude fb)),
           (truthy (Fallback.velocity fb)); cbn;
    (split; [split; [try discriminate; auto | intros (? & ? & ?); congruence]
            | try discriminate; auto]).
Qed.

Lemma fallback_aceito_por_truthiness_witness :
  let ac : gmap string json :=
    {[ "lat"%string := JStr "sul"; "lon"%string := JBool true;
       "gs"%string := JNum 450%float ]} in
  let w := {| opensky := fun _ => OSNone;
              adsb_lol := fun _ =>
                HttpJson (JObj {[ "total"%string := JNum 1%float;
                                  "ac"%string := JArr [JObj ac] ]}) |} in
  Rastreio.dados_validos (fst (rastrear "e49102" w [])) = true /\
  Rastreio.posicao (fst (rastrear "e49102" w [])) = Some (JStr "sul", JBool true).
Proof.
  intros ac w.
  destruct (fallback_aceito_por_truthiness w "e49102"%string []
              (JObj {[ "total"%string := JNum 1%float; "ac"%string := JArr [JObj ac] ]})
              (Fallback.mk (JStr "sul") (JBool true) (Some (450 * 1.852)%float)))
    as [Hiff Hpos]; [reflexivity | reflexivity | vm_compute; reflexivity |].
  assert (Hv : Rastreio.dados_validos (fst (rastrear "e49102" w [])) = true)
    by (apply Hiff; repeat split; reflexivity).
  split; [exact Hv | apply (Hpos Hv)].
Defined.

(** ** The request URL *)




(** ** Which values count as missing *)

Lemma float_truthy_false_iff (x : float) :
  float_truthy x = false <-> x = 0%float \/ x = (-0)%float.
Proof.
  unfold float_truthy. rewrite negb_false_iff, FloatAxioms.eqb_spec.
  change (Prim2SF 0) with (S754_zero false). split.
  - intros Heq. destruct (Prim2SF x) as [s|s| |s m e] eqn:Hx; cbn in Heq;
      [ | destruct s; discriminate | discriminate | destruct s; discriminate ].
    destruct s; [right | left]; apply Prim2SF_inj; rewrite Hx; reflexivity.
  - intros [-> | ->]; reflexivity.
Qed.

(** X17. A latitude, longitude or velocity of the primary provider is
    taken as missing exactly when it is [None], [0.0] or [-0.0]; every other
    float, NaN and the infinities included, is taken as data. *)
Theorem truthy_false_iff (o : option float) :
  truthy o = false <-> o = None \/ o = Some 0%float \/ o = Some (-0)%float.
Proof.
  destruct o as [x|]; cbn.
  - rewrite float_truthy_false_iff. split.
    + intros [-> | ->]; auto.
    + intros [? | [[= ->] | [= ->]]]; [discriminate | auto | auto].
  - split; auto.
Qed.

Lemma truthy_false_iff_witness :
  truthy (Some nan) = true /\ truthy (Some infinity) = true /\
  truthy (Some (-0)%float) = false.
Proof.
  split; [reflexivity|]. split; [reflexivity|].
  apply (truthy_false_iff (Some (-0)%float)). right. right. reflexivity.
Defined.

(** ** A pass followed by an update *)



